(** * Form submission component and configuration service

    A shallow embedding of the two Angular fragments of the repository:
    [MyComponent] (a reactive form with a [name] control and a list of
    selected files, posted as multipart form data) and [ConfigService]
    (one GET of a relative URL).

    The browser and framework objects the code talks to ([File],
    [FormData], [FormGroup], [HttpClient], [Observable], [console]) are
    modelled by the part of their contract that the code uses.  Methods
    are state transformers on an explicit program state.  No operation
    the two classes use throws; the one failure there is, the error
    notification of an observable, goes to the subscriber's error
    callback, or to the list of unhandled errors when there is none. *)

From Stdlib Require Import Ascii String.
From stdpp Require Import gmap strings list fin_maps.

(** ** JavaScript strings *)

(** A JavaScript string is the sequence of its UTF-16 code units.  Keys,
    URLs, labels and file names, which the code never converts, stay
    [string]s. *)
Definition DOMString := list N.

(** Text written as a literal, as a JavaScript string: one code unit per
    character. *)
Definition units (s : string) : DOMString :=
  map N_of_ascii (list_ascii_of_string s).

Coercion units : string >-> DOMString.

Definition is_high_surrogate (u : N) : bool :=
  ((0xD800 <=? u) && (u <=? 0xDBFF))%N.

Definition is_low_surrogate (u : N) : bool :=
  ((0xDC00 <=? u) && (u <=? 0xDFFF))%N.

Definition replacement_character : N := 0xFFFD%N.

(** The conversion of a JavaScript string to a scalar value string
    (WebIDL's USVString): a high surrogate followed by a low one is a
    pair and stays; every other surrogate is replaced by U+FFFD. *)
Fixpoint USVString (s : DOMString) : DOMString :=
  match s with
  | [] => []
  | c :: rest =>
      if is_high_surrogate c then
        match rest with
        | d :: rest' =>
            if is_low_surrogate d then c :: d :: USVString rest'
            else replacement_character :: USVString rest
        | [] => [replacement_character]
        end
      else if is_low_surrogate c then replacement_character :: USVString rest
      else c :: USVString rest
  end.

(** No surrogate outside a pair. *)
Fixpoint well_formed (s : DOMString) : bool :=
  match s with
  | [] => true
  | c :: rest =>
      if is_high_surrogate c then
        match rest with
        | d :: rest' => is_low_surrogate d && well_formed rest'
        | [] => false
        end
      else negb (is_low_surrogate c) && well_formed rest
  end.

(** ** JavaScript values held by a form control *)

Inductive JsValue :=
| JsUndefined
| JsNull
| JsString (s : DOMString).

(** JavaScript's [ToString] on these values. *)
Definition ToString (v : JsValue) : DOMString :=
  match v with
  | JsUndefined => "undefined"%string
  | JsNull => "null"%string
  | JsString s => s
  end.

(** ** Files and multipart form data *)

Record File := {
  name : string;
  content : list Byte.byte
}.

Inductive FormDataEntryValue :=
| EntryString (s : DOMString)
| EntryFile (f : File).

(** A [FormData] object is its entry list, in insertion order;
    repeated keys are kept. *)
Abbreviation FormData := (list (string * FormDataEntryValue)).

Definition FormData_new : FormData := [].

(** [formData.append(key, value)] with a value that is not a Blob: the
    parameter is a USVString, so the value is converted to a string and
    then to a scalar value string. *)
Definition FormData_append (fd : FormData) (key : string) (v : JsValue) : FormData :=
  fd ++ [(key, EntryString (USVString (ToString v)))].

(** [formData.append(key, blob, filename)]: the entry is a file with the
    bytes of [blob] whose name is [filename] (a file name is a scalar
    value string already). *)
Definition FormData_append_file (fd : FormData) (key : string) (blob : File)
    (filename : string) : FormData :=
  fd ++ [(key, EntryFile {| name := filename; content := content blob |})].

(** [Array.from(iterable)]: a new array filled by pushing the elements in
    iteration order. *)
Definition Array_from {A} (items : list A) : list A :=
  fold_left (fun acc x => acc ++ [x]) items [].

(** [array.forEach((x, index) => ...)] where the callback updates a
    captured variable of type [S]. *)
Fixpoint forEach_from {A S} (f : A -> nat -> S -> S) (index : nat) (xs : list A) (s : S) : S :=
  match xs with
  | [] => s
  | x :: rest => forEach_from f (Datatypes.S index) rest (f x index s)
  end.

Definition forEach {A S} (f : A -> nat -> S -> S) (xs : list A) (s : S) : S :=
  forEach_from f 0 xs s.

(** ** Reactive forms *)

Record AbstractControl := { value : JsValue }.

Record FormGroup := { controls : gmap string AbstractControl }.

Inductive FormBuilder : Set := TheFormBuilder.

(** A control configuration is the array literal of the source,
    [[initialValue, ...]]; its first element is the initial value. *)
Definition control_of_config (cfg : list JsValue) : AbstractControl :=
  {| value := match cfg with
              | [] => JsNull
              | v :: _ => v
              end |}.

Definition FormBuilder_group (fb : FormBuilder) (controlsConfig : gmap string (list JsValue))
    : FormGroup :=
  {| controls := control_of_config <$> controlsConfig |}.

(** [group.get(key)]: the control, or [None] for JavaScript's [null]. *)
Definition FormGroup_get (g : FormGroup) (key : string) : option AbstractControl :=
  controls g !! key.

(** [control?.value]. *)
Definition optional_value (c : option AbstractControl) : JsValue :=
  match c with
  | Some ctl => value ctl
  | None => JsUndefined
  end.

(** ** HTTP requests and observables *)

Inductive HttpMethod := GET | POST.

Record HttpRequest := {
  method : HttpMethod;
  url : string;
  body : option FormData
}.

Definition HttpResponse := string.

Record HttpErrorResponse := {
  status : Z;
  statusText : string
}.

Inductive Ending :=
| Completes
| Fails (e : HttpErrorResponse)
| NeverEnds.

(** What one subscription is notified of: the values, in order, and how
    the stream ends. *)
Record Notifications := {
  emitted : list HttpResponse;
  ending : Ending
}.

(** The injected [HttpClient] is not part of the sources and is taken as
    a parameter: [backend] is the opaque transport and server, which
    from the requests sent so far and a new request decides what the
    subscriber is notified of. *)
Record HttpClient := {
  backend : list HttpRequest -> HttpRequest -> Notifications
}.

(** The handle [http.get] and [http.post] return is a cold observable:
    the client and the request it will send when subscribed to. *)
Record Observable := {
  client : HttpClient;
  request : HttpRequest
}.

(** The text after the first question mark of a URL, if there is one. *)
Fixpoint query_string (u : string) : option string :=
  match u with
  | EmptyString => None
  | String c rest => if Ascii.eqb c "?"%char then Some rest else query_string rest
  end.

(** ** The console *)

Inductive ConsoleLevel := LevelLog | LevelError.

Inductive ConsoleArg :=
| ArgResponse (r : HttpResponse)
| ArgFailure (e : HttpErrorResponse).

Record ConsoleEntry := {
  level : ConsoleLevel;
  label : string;
  detail : ConsoleArg
}.

(** ** Program state *)

Record MyComponent := {
  fb : FormBuilder;
  http : HttpClient;
  myForm : FormGroup;
  selectedFiles : list File
}.

(** What callbacks can touch: the component, the requests handed to the
    transport, the console, and the errors no observer handled (reported
    to the host's global error handler). *)
Record Store := {
  component : MyComponent;
  requests : list HttpRequest;
  console : list ConsoleEntry;
  uncaught : list HttpErrorResponse
}.

Definition set_component (c : MyComponent) (s : Store) : Store :=
  {| component := c; requests := requests s; console := console s; uncaught := uncaught s |}.

Definition add_request (r : HttpRequest) (s : Store) : Store :=
  {| component := component s; requests := requests s ++ [r];
     console := console s; uncaught := uncaught s |}.

Definition add_console (e : ConsoleEntry) (s : Store) : Store :=
  {| component := component s; requests := requests s;
     console := console s ++ [e]; uncaught := uncaught s |}.

Definition add_uncaught (e : HttpErrorResponse) (s : Store) : Store :=
  {| component := component s; requests := requests s;
     console := console s; uncaught := uncaught s ++ [e] |}.

Definition console_log (lbl : string) (a : ConsoleArg) (s : Store) : Store :=
  add_console {| level := LevelLog; label := lbl; detail := a |} s.

Definition console_error (lbl : string) (a : ConsoleArg) (s : Store) : Store :=
  add_console {| level := LevelError; label := lbl; detail := a |} s.

(** The two optional callbacks of [observable.subscribe(next, error)]. *)
Record Observer := {
  next : option (HttpResponse -> Store -> Store);
  error : option (HttpErrorResponse -> Store -> Store)
}.

Record Subscription := {
  source : Notifications;
  observer : Observer
}.

(** The whole state: the store and the subscriptions whose notifications
    the event loop has still to deliver. *)
Record State := {
  store : Store;
  pending : list Subscription
}.

(** Methods are state transformers returning a value. *)
Definition Action (A : Type) := State -> A * State.

Definition ret {A} (a : A) : Action A := fun st => (a, st).

Definition bind {A B} (m : Action A) (k : A -> Action B) : Action B :=
  fun st => let (a, st') := m st in k a st'.

Notation "'let!' x ':=' m 'in' k" := (bind m (fun x => k))
  (at level 10, x name, m at level 100, k at level 200).

Definition get_this : Action MyComponent :=
  fun st => (component (store st), st).

Definition put_this (c : MyComponent) : Action unit :=
  fun st => (tt, {| store := set_component c (store st); pending := pending st |}).

(** [http.get(url)] and [http.post(url, body)] only build the
    observable: the call sends nothing. *)
Definition HttpClient_request (h : HttpClient) (r : HttpRequest) : Action Observable :=
  ret {| client := h; request := r |}.

Definition HttpClient_get (h : HttpClient) (u : string) : Action Observable :=
  HttpClient_request h {| method := GET; url := u; body := None |}.

Definition HttpClient_post (h : HttpClient) (u : string) (fd : FormData) : Action Observable :=
  HttpClient_request h {| method := POST; url := u; body := Some fd |}.

(** What a subscription to [o] made in state [st] will be notified of. *)
Definition answer (o : Observable) (st : State) : Notifications :=
  backend (client o) (requests (store st)) (request o).

(** [observable.subscribe(next, error)]: the request is sent now, once
    for this subscription, and the call returns at once; the
    notifications are delivered by a later turn of the event loop. *)
Definition subscribe (o : Observable) (nxt : option (HttpResponse -> Store -> Store))
    (err : option (HttpErrorResponse -> Store -> Store)) : Action unit :=
  fun st =>
    (tt, {| store := add_request (request o) (store st);
            pending := pending st ++
              [{| source := answer o st; observer := {| next := nxt; error := err |} |}] |}).

Definition notify_next (o : Observer) (r : HttpResponse) (s : Store) : Store :=
  match next o with
  | Some f => f r s
  | None => s
  end.

(** An error notification without an error callback is reported as
    unhandled. *)
Definition notify_error (o : Observer) (e : HttpErrorResponse) (s : Store) : Store :=
  match error o with
  | Some f => f e s
  | None => add_uncaught e s
  end.

Definition deliver (sub : Subscription) (s : Store) : Store :=
  let s1 := fold_left (fun acc r => notify_next (observer sub) r acc)
                      (emitted (source sub)) s in
  match ending (source sub) with
  | Fails e => notify_error (observer sub) e s1
  | Completes | NeverEnds => s1
  end.

(** One run of the event loop over everything pending. *)
Definition run_pending (st : State) : State :=
  {| store := fold_left (fun s sub => deliver sub s) (pending st) (store st);
     pending := [] |}.

(** ** MyComponent *)

(** The constructor: [selectedFiles] starts as the empty array and the
    form is the group with the single control [name: ['']]. *)
Definition MyComponent_new (fb0 : FormBuilder) (http0 : HttpClient) : MyComponent :=
  {| fb := fb0;
     http := http0;
     myForm := FormBuilder_group fb0 {[ "name"%string := [JsString EmptyString] ]};
     selectedFiles := [] |}.

Record EventTarget := { files : list File }.
Record Event := { target : EventTarget }.

Definition onFilesSelected (event : Event) : Action unit :=
  let! this := get_this in
  put_this {| fb := fb this; http := http this; myForm := myForm this;
              selectedFiles := Array_from (files (target event)) |}.

(** The payload built by the first half of [onSubmit]. *)
Definition build_formData (this : MyComponent) : FormData :=
  let formData := FormData_new in
  let formData :=
    FormData_append formData "name" (optional_value (FormGroup_get (myForm this) "name")) in
  forEach (fun file index fd => FormData_append_file fd "source_files" file (name file))
          (selectedFiles this) formData.

Definition onSubmit : Action unit :=
  let! this := get_this in
  let formData := build_formData this in
  let! response := HttpClient_post (http this) "/your-api-endpoint" formData in
  subscribe response
    (Some (fun res => console_log "Success" (ArgResponse res)))
    (Some (fun err => console_error "Error" (ArgFailure err))).

(** Modelled from the spec: the binding of the text input to the [name]
    control lives in the component's template, which is not part of the
    sources; the field is "mutable by user input" and holds what the user
    typed, a string. *)
Definition setName (s : DOMString) : Action unit :=
  let! this := get_this in
  put_this {| fb := fb this; http := http this;
              myForm := {| controls := <[ "name"%string := {| value := JsString s |} ]>
                                         (controls (myForm this)) |};
              selectedFiles := selectedFiles this |}.

(** ** ConfigService *)

Module ConfigService.

Record t := { http : HttpClient }.

Definition loadConfig (this : t) : Action Observable :=
  HttpClient_get (http this) "/api/config".

End ConfigService.

(** ** Observations used by the statements *)

(** [formData.getAll(key)]: the values stored under [key], in order. *)
Definition FormData_getAll (key : string) (fd : FormData) : list FormDataEntryValue :=
  (filter (fun p => p.1 = key) fd).*2.

(** The current value of the [name] field, as [onSubmit] reads it. *)
Definition name_value (c : MyComponent) : JsValue :=
  optional_value (FormGroup_get (myForm c) "name").

(** The request [onSubmit] hands to the transport for a component. *)
Definition submitted_request (c : MyComponent) : HttpRequest :=
  {| method := POST; url := "/your-api-endpoint"; body := Some (build_formData c) |}.

(** What the transport answers [onSubmit]'s subscription with in state
    [st]. *)
Definition submit_handle (st : State) : Notifications :=
  backend (http (component (store st))) (requests (store st))
          (submitted_request (component (store st))).

Definition config_request : HttpRequest :=
  {| method := GET; url := "/api/config"; body := None |}.

Definition is_error_entry (e : ConsoleEntry) : bool :=
  match level e with
  | LevelError => true
  | LevelLog => false
  end.

(** A freshly constructed component in a world where nothing has
    happened yet. *)
Definition initial_state (fb0 : FormBuilder) (http0 : HttpClient) : State :=
  {| store := {| component := MyComponent_new fb0 http0;
                 requests := []; console := []; uncaught := [] |};
     pending := [] |}.

(** What can happen to a component: its two methods, the user typing a
    name, and a turn of the event loop. *)
Inductive Op :=
| OpFilesSelected (event : Event)
| OpSubmit
| OpSetName (s : DOMString)
| OpEventLoop.

Definition run_op (o : Op) (st : State) : State :=
  match o with
  | OpFilesSelected event => (onFilesSelected event st).2
  | OpSubmit => (onSubmit st).2
  | OpSetName s => (setName s st).2
  | OpEventLoop => run_pending st
  end.

Definition run_ops (ops : list Op) (st : State) : State :=
  fold_left (fun acc o => run_op o acc) ops st.

(** The name control exists and holds a string. *)
Definition name_is_string (c : MyComponent) : Prop :=
  exists s, FormGroup_get (myForm c) "name" = Some {| value := JsString s |}.

(** Delivering a subscription leaves the component alone. *)
Definition quiet (sub : Subscription) : Prop :=
  forall s, component (deliver sub s) = component s.

(** The invariant of the reachable states: the name control exists and
    holds a string, and no pending subscription touches the component. *)
Definition Inv (st : State) : Prop :=
  name_is_string (component (store st)) /\ Forall quiet (pending st).

(** ** Example scenarios *)

Definition a_txt : File := {| name := "a.txt"; content := [Byte.x68; Byte.x69] |}.
Definition b_png : File := {| name := "b.png"; content := [Byte.x89; Byte.x50] |}.

Definition pick (fs : list File) : Event := {| target := {| files := fs |} |}.

(** A transport whose every request succeeds with one value. *)
Definition http_ok : HttpClient :=
  {| backend := fun _ _ => {| emitted := ["done"%string]; ending := Completes |} |}.

Definition unreachable : HttpErrorResponse :=
  {| status := 0; statusText := "Unknown Error" |}.

(** A transport whose every request fails. *)
Definition http_down : HttpClient :=
  {| backend := fun _ _ => {| emitted := []; ending := Fails unreachable |} |}.

(** Files a.txt and b.png selected, name Alice. *)
Definition alice (h : HttpClient) : State :=
  run_ops [OpFilesSelected (pick [a_txt; b_png]); OpSetName "Alice"]
          (initial_state TheFormBuilder h).

(** The same selection and name, reached the long way round and with a
    history of earlier traffic. *)
Definition alice_again (h : HttpClient) : State :=
  run_ops [OpSetName "Bob"; OpFilesSelected (pick [b_png]); OpSubmit; OpEventLoop;
           OpFilesSelected (pick [a_txt; b_png]); OpSetName "Alice"]
          (initial_state TheFormBuilder h).

Definition blank (h : HttpClient) : State :=
  run_ops [OpSetName "Carol"; OpSetName EmptyString] (initial_state TheFormBuilder h).

Definition config_service (h : HttpClient) : ConfigService.t :=
  {| ConfigService.http := h |}.

(** ** Observations over whole runs *)

(** The observer [onSubmit] subscribes with. *)
Definition submit_observer : Observer :=
  {| next := Some (fun res => console_log "Success" (ArgResponse res));
     error := Some (fun err => console_error "Error" (ArgFailure err)) |}.

(** The console lines that the notifications of a handle produce under
    [submit_observer]. *)
Definition lines_of (o : Notifications) : list ConsoleEntry :=
  map (fun r => {| level := LevelLog; label := "Success"; detail := ArgResponse r |})
      (emitted o) ++
  match ending o with
  | Fails e => [{| level := LevelError; label := "Error"; detail := ArgFailure e |}]
  | _ => []
  end.

(** Every pending subscription was made by [onSubmit]. *)
Definition tidy (st : State) : Prop :=
  Forall (fun sub => observer sub = submit_observer) (pending st).

Definition error_count (l : list ConsoleEntry) : nat :=
  length (List.filter is_error_entry l).

(** A line as [onSubmit]'s callbacks write it. *)
Definition submit_line (e : ConsoleEntry) : Prop :=
  (exists r, e = {| level := LevelLog; label := "Success"; detail := ArgResponse r |})
  \/ (exists err, e = {| level := LevelError; label := "Error"; detail := ArgFailure err |}).

Definition is_submit (o : Op) : bool :=
  match o with
  | OpSubmit => true
  | _ => false
  end.

Definition count_submits (ops : list Op) : nat :=
  length (List.filter is_submit ops).

(** The files of the latest selection event in [ops], or [cur] if there
    is none. *)
Definition last_selection (cur : list File) (ops : list Op) : list File :=
  fold_left (fun acc o => match o with
                          | OpFilesSelected event => files (target event)
                          | _ => acc
                          end) ops cur.

(** A component whose form has no control at all. *)
Definition nameless (h : HttpClient) : State :=
  {| store := {| component := {| fb := TheFormBuilder; http := h;
                                 myForm := {| controls := ∅ |};
                                 selectedFiles := [a_txt] |};
                 requests := []; console := []; uncaught := [] |};
     pending := [] |}.

Definition is_selection (o : Op) : bool :=
  match o with
  | OpFilesSelected _ => true
  | _ => false
  end.

(** A name that is one unpaired high surrogate, with a.txt selected. *)
Definition lone_surrogate (h : HttpClient) : State :=
  run_ops [OpFilesSelected (pick [a_txt]); OpSetName [0xD800%N]]
          (initial_state TheFormBuilder h).

(** A name typed, and a submission made, before any file was selected. *)
Definition dave (h : HttpClient) : State :=
  run_ops [OpSetName "Dave"%string; OpSubmit; OpEventLoop; OpSetName "Dave Jr"%string]
          (initial_state TheFormBuilder h).

(** * Properties *)

(** ** Arrays and form data *)

Lemma push_all {A} (xs acc : list A) :
  fold_left (fun a x => a ++ [x]) xs acc = acc ++ xs.
Proof.
  revert acc. induction xs as [|x xs IH]; intros acc; simpl.
  - by rewrite app_nil_r.
  - rewrite IH. by rewrite <- app_assoc.
Qed.

Lemma Array_from_copy {A} (xs : list A) : Array_from xs = xs.
Proof. unfold Array_from. by rewrite push_all. Qed.

Lemma File_eta (f : File) : {| name := name f; content := content f |} = f.
Proof. by destruct f. Qed.

Lemma forEach_append_file (key : string) (xs : list File) (i : nat) (fd : FormData) :
  forEach_from (fun file (_ : nat) acc => FormData_append_file acc key file (name file)) i xs fd
  = fd ++ map (fun f => (key, EntryFile f)) xs.
Proof.
  revert i fd. induction xs as [|x xs IH]; intros i fd; simpl.
  - by rewrite app_nil_r.
  - rewrite IH. unfold FormData_append_file. rewrite File_eta.
    by rewrite <- app_assoc.
Qed.

Lemma USVString_well_formed (s : DOMString) :
  well_formed s = true -> USVString s = s.
Proof.
  remember (length s) as n eqn:Hn. revert s Hn.
  induction n as [n IH] using lt_wf_ind. intros s Hn Hwf.
  destruct s as [|c rest]; [reflexivity|].
  cbn [USVString well_formed] in *. destruct (is_high_surrogate c).
  - destruct rest as [|d rest']; [discriminate|].
    destruct (is_low_surrogate d); [|discriminate].
    do 2 f_equal. apply (IH (length rest')); [simpl in Hn; lia | reflexivity | exact Hwf].
  - destruct (is_low_surrogate c); [discriminate|].
    f_equal. apply (IH (length rest)); [simpl in Hn; lia | reflexivity | exact Hwf].
Qed.

Lemma build_formData_parts (c : MyComponent) :
  build_formData c
  = ("name"%string, EntryString (USVString (ToString (name_value c))))
      :: map (fun f => ("source_files"%string, EntryFile f)) (selectedFiles c).
Proof.
  unfold build_formData, forEach. rewrite forEach_append_file. reflexivity.
Qed.

Lemma getAll_other_key (key other : string) (xs : list File) :
  key <> other ->
  FormData_getAll key (map (fun f => (other, EntryFile f)) xs) = [].
Proof.
  intros Hne. unfold FormData_getAll.
  induction xs as [|x xs IH]; [done|].
  cbn [map]. rewrite filter_cons_False; [exact IH | simpl; congruence].
Qed.

Lemma getAll_same_key (key : string) (xs : list File) :
  FormData_getAll key (map (fun f => (key, EntryFile f)) xs) = map EntryFile xs.
Proof.
  unfold FormData_getAll.
  induction xs as [|x xs IH]; [done|].
  cbn [map]. rewrite filter_cons_True; [|done]. cbn [fmap list_fmap snd]. by rewrite IH.
Qed.

(** ** The two halves of a submission *)

Lemma onSubmit_unfold (st : State) :
  onSubmit st
  = (tt, {| store := add_request (submitted_request (component (store st))) (store st);
            pending := pending st ++
              [{| source := submit_handle st;
                  observer :=
                    {| next := Some (fun res => console_log "Success" (ArgResponse res));
                       error := Some (fun err => console_error "Error" (ArgFailure err)) |}
               |}] |}).
Proof. reflexivity. Qed.

Lemma log_all_successes (rs : list HttpResponse) (s : Store) :
  fold_left (fun acc r => console_log "Success" (ArgResponse r) acc) rs s
  = {| component := component s; requests := requests s;
       console := console s ++
         map (fun r => {| level := LevelLog; label := "Success"; detail := ArgResponse r |}) rs;
       uncaught := uncaught s |}.
Proof.
  revert s. induction rs as [|r rs IH]; intros s; simpl.
  - rewrite app_nil_r. by destruct s.
  - rewrite IH. simpl. by rewrite <- app_assoc.
Qed.

(** Delivering the notifications of a submission only writes to the
    console: one [Success] line per value, and one [Error] line if the
    handle fails. *)
Lemma deliver_submission (o : Notifications) (s : Store) :
  deliver {| source := o;
             observer :=
               {| next := Some (fun res => console_log "Success" (ArgResponse res));
                  error := Some (fun err => console_error "Error" (ArgFailure err)) |} |} s
  = {| component := component s; requests := requests s;
       console := console s ++
         map (fun r => {| level := LevelLog; label := "Success"; detail := ArgResponse r |})
             (emitted o) ++
         match ending o with
         | Fails e => [{| level := LevelError; label := "Error"; detail := ArgFailure e |}]
         | _ => []
         end;
       uncaught := uncaught s |}.
Proof.
  unfold deliver, notify_next, notify_error. simpl.
  rewrite log_all_successes.
  destruct (ending o); simpl; rewrite ?app_nil_r, ?app_assoc; reflexivity.
Qed.

Lemma submit_settled (st : State) :
  pending st = [] ->
  run_pending (onSubmit st).2
  = {| store :=
         {| component := component (store st);
            requests := requests (store st) ++ [submitted_request (component (store st))];
            console := console (store st) ++
              map (fun r => {| level := LevelLog; label := "Success"; detail := ArgResponse r |})
                  (emitted (submit_handle st)) ++
              match ending (submit_handle st) with
              | Fails e => [{| level := LevelError; label := "Error"; detail := ArgFailure e |}]
              | _ => []
              end;
            uncaught := uncaught (store st) |};
       pending := [] |}.
Proof.
  intros Hq. rewrite onSubmit_unfold. unfold run_pending. simpl.
  rewrite Hq. simpl. rewrite deliver_submission. reflexivity.
Qed.

(** ** Submitting *)

Lemma onSubmit_requests (st : State) :
  requests (store (onSubmit st).2)
  = requests (store st) ++ [submitted_request (component (store st))].
Proof. by rewrite onSubmit_unfold. Qed.

Lemma getAll_name (c : MyComponent) :
  FormData_getAll "name" (build_formData c)
  = [EntryString (USVString (ToString (name_value c)))].
Proof.
  rewrite build_formData_parts. unfold FormData_getAll.
  rewrite filter_cons_True by done. cbn [fmap list_fmap snd]. f_equal.
  apply (getAll_other_key "name" "source_files"). congruence.
Qed.

Lemma getAll_source_files (c : MyComponent) :
  FormData_getAll "source_files" (build_formData c) = map EntryFile (selectedFiles c).
Proof.
  rewrite build_formData_parts. unfold FormData_getAll.
  rewrite filter_cons_False by (simpl; congruence).
  apply getAll_same_key.
Qed.

(** C1 (as amended): when the name field holds the string [s] and the
    selection is [files], [onSubmit] hands the transport exactly one
    more request, a POST to /your-api-endpoint, whose body is the part
    [name] holding [s] converted to a scalar value string (an unpaired
    surrogate becomes U+FFFD; a string without one is held as it is),
    followed by one [source_files] part per selected file, in selection
    order, each with the file's own name and bytes; so the payload has
    exactly one [name] part and exactly [length files] file parts. *)
Theorem onSubmit_multipart_payload (st : State) (s : DOMString) :
  name_value (component (store st)) = JsString s ->
  requests (store (onSubmit st).2)
  = requests (store st) ++
      [{| method := POST;
          url := "/your-api-endpoint";
          body := Some (("name"%string, EntryString (USVString s))
                          :: map (fun f => ("source_files"%string,
                                            EntryFile {| name := name f; content := content f |}))
                                 (selectedFiles (component (store st)))) |}]
  /\ FormData_getAll "name" (build_formData (component (store st)))
     = [EntryString (USVString s)]
  /\ (well_formed s = true ->
      FormData_getAll "name" (build_formData (component (store st))) = [EntryString s])
  /\ FormData_getAll "source_files" (build_formData (component (store st)))
     = map EntryFile (selectedFiles (component (store st)))
  /\ length (FormData_getAll "source_files" (build_formData (component (store st))))
     = length (selectedFiles (component (store st))).
Proof.
  intros Hname. split; [|split; [|split; [|split]]].
  - rewrite onSubmit_requests. unfold submitted_request.
    rewrite build_formData_parts, Hname. simpl.
    do 5 f_equal. apply map_ext. intros f. by rewrite File_eta.
  - by rewrite getAll_name, Hname.
  - intros Hwf. rewrite getAll_name, Hname. cbn [ToString].
    by rewrite (USVString_well_formed s Hwf).
  - apply getAll_source_files.
  - rewrite getAll_source_files. apply length_map.
Qed.

Lemma onSubmit_multipart_payload_alice :
  requests (store (onSubmit (alice http_ok)).2)
  = [{| method := POST;
        url := "/your-api-endpoint";
        body := Some [("name"%string, EntryString "Alice"%string);
                      ("source_files"%string, EntryFile a_txt);
                      ("source_files"%string, EntryFile b_png)] |}].
Proof.
  destruct (onSubmit_multipart_payload (alice http_ok) "Alice"%string) as [H _].
  - vm_compute. reflexivity.
  - exact H.
Defined.

(** A name that is one unpaired surrogate is not posted as it is: the
    [name] part holds U+FFFD instead. *)
Lemma onSubmit_lone_surrogate_replaced :
  name_value (component (store (lone_surrogate http_ok))) = JsString [0xD800%N]
  /\ FormData_getAll "name" (build_formData (component (store (lone_surrogate http_ok))))
     = [EntryString [0xFFFD%N]]
  /\ requests (store (onSubmit (lone_surrogate http_ok)).2)
     = [{| method := POST;
           url := "/your-api-endpoint";
           body := Some [("name"%string, EntryString [0xFFFD%N]);
                         ("source_files"%string, EntryFile a_txt)] |}]
  /\ EntryString [0xFFFD%N] <> EntryString [0xD800%N].
Proof.
  split; [|split; [|split]]; [vm_compute; reflexivity .. | discriminate].
Qed.

(** ** Selecting files *)

Lemma onFilesSelected_unfold (event : Event) (st : State) :
  onFilesSelected event st
  = (tt, {| store :=
              set_component
                {| fb := fb (component (store st));
                   http := http (component (store st));
                   myForm := myForm (component (store st));
                   selectedFiles := files (target event) |}
                (store st);
            pending := pending st |}).
Proof.
  unfold onFilesSelected, bind, get_this, put_this. by rewrite Array_from_copy.
Qed.

(** C3: selecting [A] and then [B] leaves the same state as selecting
    [B] alone: the selection is exactly [B], and the request a following
    [onSubmit] issues carries the name part and the files of [B] only. *)
Theorem onFilesSelected_replaces (evA evB : Event) (st : State) :
  (onFilesSelected evB (onFilesSelected evA st).2).2 = (onFilesSelected evB st).2
  /\ selectedFiles (component (store (onFilesSelected evB (onFilesSelected evA st).2).2))
     = files (target evB)
  /\ requests (store (onSubmit (onFilesSelected evB (onFilesSelected evA st).2).2).2)
     = requests (store st) ++
         [{| method := POST;
             url := "/your-api-endpoint";
             body := Some (("name"%string,
                            EntryString (USVString
                                           (ToString (name_value (component (store st))))))
                             :: map (fun f => ("source_files"%string, EntryFile f))
                                    (files (target evB))) |}].
Proof.
  rewrite onSubmit_requests, !onFilesSelected_unfold.
  unfold submitted_request. rewrite build_formData_parts.
  repeat split.
Qed.

(** ** Edge cases of the payload *)

(** C4: when the name field holds the empty string, the payload still
    starts with a [name] part, whose value is the empty string, and it is
    the only [name] part. *)
Theorem onSubmit_empty_name_kept (st : State) :
  name_value (component (store st)) = JsString EmptyString ->
  head (build_formData (component (store st))) = Some ("name"%string, EntryString EmptyString)
  /\ FormData_getAll "name" (build_formData (component (store st))) = [EntryString EmptyString]
  /\ exists rest,
       requests (store (onSubmit st).2)
       = requests (store st) ++
           [{| method := POST;
               url := "/your-api-endpoint";
               body := Some (("name"%string, EntryString EmptyString) :: rest) |}].
Proof.
  intros Hname. split; [|split].
  - rewrite build_formData_parts, Hname. reflexivity.
  - by rewrite getAll_name, Hname.
  - eexists. rewrite onSubmit_requests. unfold submitted_request.
    rewrite build_formData_parts, Hname. reflexivity.
Qed.

Lemma onSubmit_empty_name_kept_blank :
  head (build_formData (component (store (blank http_ok))))
  = Some ("name"%string, EntryString EmptyString).
Proof.
  destruct (onSubmit_empty_name_kept (blank http_ok)) as [H _].
  - vm_compute. reflexivity.
  - exact H.
Defined.

Lemma new_component_name (fb0 : FormBuilder) (http0 : HttpClient) :
  FormGroup_get (myForm (MyComponent_new fb0 http0)) "name"
  = Some {| value := JsString EmptyString |}.
Proof.
  unfold FormGroup_get, MyComponent_new, FormBuilder_group. simpl.
  rewrite lookup_fmap, lookup_singleton_eq. reflexivity.
Qed.

(** ** Failure of a submission *)

Lemma success_lines_not_errors (rs : list HttpResponse) :
  List.filter is_error_entry
    (map (fun r => {| level := LevelLog; label := "Success"; detail := ArgResponse r |}) rs)
  = [].
Proof. induction rs as [|r rs IH]; [reflexivity | exact IH]. Qed.

(** C5: when the handle of the POST ends in failure [e], nothing is
    reported as unhandled, neither when [onSubmit] returns nor once the
    event loop has delivered the notifications: the failure goes to the
    error callback [onSubmit] subscribed with.  The console gets exactly
    one error line ([Error], [e]), after the lines of the values
    delivered before the failure, and the component is what it was. *)
Theorem onSubmit_failure_only_logged (st : State) (e : HttpErrorResponse) :
  pending st = [] ->
  ending (submit_handle st) = Fails e ->
  uncaught (store (onSubmit st).2) = uncaught (store st)
  /\ uncaught (store (run_pending (onSubmit st).2)) = uncaught (store st)
  /\ console (store (run_pending (onSubmit st).2))
     = console (store st) ++
         map (fun r => {| level := LevelLog; label := "Success"; detail := ArgResponse r |})
             (emitted (submit_handle st)) ++
         [{| level := LevelError; label := "Error"; detail := ArgFailure e |}]
  /\ List.filter is_error_entry (console (store (run_pending (onSubmit st).2)))
     = List.filter is_error_entry (console (store st)) ++
         [{| level := LevelError; label := "Error"; detail := ArgFailure e |}]
  /\ component (store (run_pending (onSubmit st).2)) = component (store st)
  /\ pending (run_pending (onSubmit st).2) = [].
Proof.
  intros Hq Hfail.
  rewrite (submit_settled st Hq), Hfail. simpl.
  repeat split.
  rewrite !List.filter_app, success_lines_not_errors. reflexivity.
Qed.

Lemma onSubmit_failure_only_logged_down :
  console (store (run_pending (onSubmit (alice http_down)).2))
  = [{| level := LevelError; label := "Error"; detail := ArgFailure unreachable |}]
  /\ uncaught (store (run_pending (onSubmit (alice http_down)).2)) = [].
Proof.
  destruct (onSubmit_failure_only_logged (alice http_down) unreachable)
    as (_ & Hun & Hlog & _).
  - vm_compute. reflexivity.
  - vm_compute. reflexivity.
  - split; [exact Hlog | exact Hun].
Defined.

(** C7: a failed submission rolls nothing back and changes nothing: the
    file selection, the form and the value of the name field are the
    same before the call, when the call returns, and after the failure
    has been delivered. *)
Theorem onSubmit_failure_keeps_selection (st : State) (e : HttpErrorResponse) :
  pending st = [] ->
  ending (submit_handle st) = Fails e ->
  selectedFiles (component (store (onSubmit st).2)) = selectedFiles (component (store st))
  /\ name_value (component (store (onSubmit st).2)) = name_value (component (store st))
  /\ selectedFiles (component (store (run_pending (onSubmit st).2)))
     = selectedFiles (component (store st))
  /\ name_value (component (store (run_pending (onSubmit st).2)))
     = name_value (component (store st))
  /\ myForm (component (store (run_pending (onSubmit st).2))) = myForm (component (store st)).
Proof.
  intros Hq Hfail.
  rewrite (submit_settled st Hq). repeat split.
Qed.

Lemma onSubmit_failure_keeps_selection_down :
  selectedFiles (component (store (run_pending (onSubmit (alice http_down)).2)))
  = [a_txt; b_png]
  /\ name_value (component (store (run_pending (onSubmit (alice http_down)).2)))
     = JsString "Alice".
Proof.
  destruct (onSubmit_failure_keeps_selection (alice http_down) unreachable)
    as (_ & _ & Hsel & Hname & _).
  - vm_compute. reflexivity.
  - vm_compute. reflexivity.
  - split; [rewrite Hsel | rewrite Hname]; vm_compute; reflexivity.
Defined.

(** ** Determinism of the payload *)

(** C9: two states whose components agree on the value of the name field
    and on the file selection make [onSubmit] issue the same request:
    the same parts under the same keys in the same order, posted to the
    same endpoint; whatever else differs (the transport, earlier traffic,
    the console) has no influence. *)
Theorem onSubmit_payload_deterministic (st1 st2 : State) :
  name_value (component (store st1)) = name_value (component (store st2)) ->
  selectedFiles (component (store st1)) = selectedFiles (component (store st2)) ->
  build_formData (component (store st1)) = build_formData (component (store st2))
  /\ exists req,
       requests (store (onSubmit st1).2) = requests (store st1) ++ [req]
       /\ requests (store (onSubmit st2).2) = requests (store st2) ++ [req]
       /\ method req = POST
       /\ url req = "/your-api-endpoint"%string
       /\ body req = Some (build_formData (component (store st1))).
Proof.
  intros Hname Hsel.
  assert (Hfd : build_formData (component (store st1))
                = build_formData (component (store st2))).
  { by rewrite !build_formData_parts, Hname, Hsel. }
  split; [exact Hfd|].
  exists (submitted_request (component (store st1))).
  rewrite !onSubmit_requests. unfold submitted_request.
  rewrite Hfd. repeat split.
Qed.

Lemma onSubmit_payload_deterministic_alice :
  build_formData (component (store (alice http_ok)))
  = build_formData (component (store (alice_again http_down))).
Proof.
  destruct (onSubmit_payload_deterministic (alice http_ok) (alice_again http_down))
    as [H _].
  - vm_compute. reflexivity.
  - vm_compute. reflexivity.
  - exact H.
Defined.

(** ** The name control is always there *)

Lemma Inv_initial (fb0 : FormBuilder) (http0 : HttpClient) : Inv (initial_state fb0 http0).
Proof.
  split; [|constructor].
  exists EmptyString. apply new_component_name.
Qed.

Lemma deliver_all_quiet (subs : list Subscription) (s : Store) :
  Forall quiet subs ->
  component (fold_left (fun acc sub => deliver sub acc) subs s) = component s.
Proof.
  intros Hq. revert s. induction Hq as [|sub subs Hsub _ IH]; intros s; simpl.
  - reflexivity.
  - rewrite IH. apply Hsub.
Qed.

Lemma Inv_step (o : Op) (st : State) : Inv st -> Inv (run_op o st).
Proof.
  intros [[s Hs] Hq]. destruct o as [event| |s'|]; cbn [run_op].
  - rewrite onFilesSelected_unfold. split; [by exists s | exact Hq].
  - rewrite onSubmit_unfold. split; [by exists s|].
    simpl. apply Forall_app. split; [exact Hq|].
    constructor; [|constructor].
    intros s0. by rewrite deliver_submission.
  - split; [|exact Hq].
    exists s'. unfold FormGroup_get. simpl. apply lookup_insert_eq.
  - split; [|constructor].
    unfold run_pending. simpl. rewrite (deliver_all_quiet _ _ Hq). by exists s.
Qed.

Lemma Inv_run_ops (ops : list Op) (st : State) : Inv st -> Inv (run_ops ops st).
Proof.
  revert st. induction ops as [|o ops IH]; intros st Hinv; simpl.
  - exact Hinv.
  - apply IH. by apply Inv_step.
Qed.

(** C8: a constructed component has a [name] control whose value is the
    empty string, and after any sequence of file selections, submissions,
    name edits and event-loop turns the control is still there and holds
    a string [s]; so [onSubmit] reads [s] through the guarded lookup (not
    [undefined]) and the one part under key [name] is the string [s]. *)
Theorem name_control_always_string (fb0 : FormBuilder) (http0 : HttpClient) (ops : list Op) :
  FormGroup_get (myForm (MyComponent_new fb0 http0)) "name"
  = Some {| value := JsString EmptyString |}
  /\ exists s,
       FormGroup_get (myForm (component (store (run_ops ops (initial_state fb0 http0))))) "name"
       = Some {| value := JsString s |}
       /\ name_value (component (store (run_ops ops (initial_state fb0 http0)))) = JsString s
       /\ FormData_getAll "name"
            (build_formData (component (store (run_ops ops (initial_state fb0 http0)))))
          = [EntryString (USVString s)].
Proof.
  split; [apply new_component_name|].
  destruct (Inv_run_ops ops _ (Inv_initial fb0 http0)) as [[s Hs] _].
  exists s. split; [exact Hs|].
  assert (Hname : name_value (component (store (run_ops ops (initial_state fb0 http0))))
                  = JsString s).
  { unfold name_value. by rewrite Hs. }
  split; [exact Hname|].
  by rewrite getAll_name, Hname.
Qed.

(** ** ConfigService *)

Lemma loadConfig_unfold (svc : ConfigService.t) (st : State) :
  ConfigService.loadConfig svc st
  = ({| client := ConfigService.http svc; request := config_request |}, st).
Proof. reflexivity. Qed.

(** C2 (as amended): every call of [loadConfig] returns, as it is, the
    client's handle for a GET of /api/config, a URL without query
    string, with no body; the call itself sends nothing, subscribes to
    nothing, logs nothing and keeps nothing.  Every subscription to the
    returned handle sends exactly one such GET and is notified of the
    transport's answer itself; a second call followed by a subscription
    sends the request again instead of reusing the first answer. *)
Theorem loadConfig_cold_get (svc : ConfigService.t) (st : State) :
  (ConfigService.loadConfig svc st).1
  = {| client := ConfigService.http svc;
       request := {| method := GET; url := "/api/config"; body := None |} |}
  /\ query_string "/api/config" = None
  /\ (ConfigService.loadConfig svc st).2 = st
  /\ (forall nxt err st',
        requests (store (subscribe (ConfigService.loadConfig svc st).1 nxt err st').2)
        = requests (store st') ++ [{| method := GET; url := "/api/config"; body := None |}]
        /\ pending (subscribe (ConfigService.loadConfig svc st).1 nxt err st').2
           = pending st' ++
               [{| source := backend (ConfigService.http svc) (requests (store st'))
                                     {| method := GET; url := "/api/config"; body := None |};
                   observer := {| next := nxt; error := err |} |}]
        /\ console (store (subscribe (ConfigService.loadConfig svc st).1 nxt err st').2)
           = console (store st')
        /\ component (store (subscribe (ConfigService.loadConfig svc st).1 nxt err st').2)
           = component (store st'))
  /\ (forall nxt err nxt' err',
        requests
          (store
             (subscribe
                (ConfigService.loadConfig svc
                   (subscribe (ConfigService.loadConfig svc st).1 nxt err
                              (ConfigService.loadConfig svc st).2).2).1
                nxt' err'
                (ConfigService.loadConfig svc
                   (subscribe (ConfigService.loadConfig svc st).1 nxt err
                              (ConfigService.loadConfig svc st).2).2).2).2)
        = requests (store st) ++
            [{| method := GET; url := "/api/config"; body := None |};
             {| method := GET; url := "/api/config"; body := None |}]).
Proof.
  split; [reflexivity|]. split; [reflexivity|]. split; [reflexivity|]. split.
  - intros nxt err st'. rewrite loadConfig_unfold. repeat split.
  - intros nxt err nxt' err'. rewrite !loadConfig_unfold. simpl.
    by rewrite <- app_assoc.
Qed.

(** A call of [loadConfig] alone sends no request, and two
    subscriptions to the handle of one call send two. *)
Lemma loadConfig_alone_sends_nothing :
  requests (store (ConfigService.loadConfig (config_service http_ok)
                     (initial_state TheFormBuilder http_ok)).2)
  = []
  /\ requests (store (ConfigService.loadConfig (config_service http_ok)
                        (initial_state TheFormBuilder http_ok)).2)
     <> requests (store (initial_state TheFormBuilder http_ok)) ++ [config_request]
  /\ requests
       (store
          (subscribe
             (ConfigService.loadConfig (config_service http_ok)
                (initial_state TheFormBuilder http_ok)).1 None None
             (subscribe
                (ConfigService.loadConfig (config_service http_ok)
                   (initial_state TheFormBuilder http_ok)).1 None None
                (ConfigService.loadConfig (config_service http_ok)
                   (initial_state TheFormBuilder http_ok)).2).2).2)
     = [config_request; config_request].
Proof.
  split; [reflexivity|]. split; [discriminate | reflexivity].
Qed.

(** C6: when the transport answers the GET with failure [e], the handle
    [loadConfig] returns is the client's own and a subscription to it is
    answered with that failure; [loadConfig] registers no observer and
    writes nothing.  A caller who subscribes with an error callback gets
    [e] itself passed to it, and a caller who subscribes without one sees
    [e] reported as unhandled. *)
Theorem loadConfig_failure_reaches_caller (svc : ConfigService.t) (st : State)
    (e : HttpErrorResponse) :
  ending (backend (ConfigService.http svc) (requests (store st)) config_request) = Fails e ->
  (ConfigService.loadConfig svc st).1
  = {| client := ConfigService.http svc; request := config_request |}
  /\ answer (ConfigService.loadConfig svc st).1 (ConfigService.loadConfig svc st).2
     = backend (ConfigService.http svc) (requests (store st)) config_request
  /\ ending (answer (ConfigService.loadConfig svc st).1 (ConfigService.loadConfig svc st).2)
     = Fails e
  /\ pending (ConfigService.loadConfig svc st).2 = pending st
  /\ console (store (ConfigService.loadConfig svc st).2) = console (store st)
  /\ uncaught (store (ConfigService.loadConfig svc st).2) = uncaught (store st)
  /\ (forall nxt err,
        pending (subscribe (ConfigService.loadConfig svc st).1 nxt err
                           (ConfigService.loadConfig svc st).2).2
        = pending st ++
            [{| source := answer (ConfigService.loadConfig svc st).1
                                 (ConfigService.loadConfig svc st).2;
                observer := {| next := nxt; error := err |} |}])
  /\ (forall nxt handler s,
        deliver {| source := answer (ConfigService.loadConfig svc st).1
                                    (ConfigService.loadConfig svc st).2;
                   observer := {| next := nxt; error := Some handler |} |} s
        = handler e
            (fold_left (fun acc r => notify_next {| next := nxt; error := Some handler |} r acc)
                       (emitted (answer (ConfigService.loadConfig svc st).1
                                        (ConfigService.loadConfig svc st).2)) s))
  /\ (forall nxt s,
        deliver {| source := answer (ConfigService.loadConfig svc st).1
                                    (ConfigService.loadConfig svc st).2;
                   observer := {| next := nxt; error := None |} |} s
        = add_uncaught e
            (fold_left (fun acc r => notify_next {| next := nxt; error := None |} r acc)
                       (emitted (answer (ConfigService.loadConfig svc st).1
                                        (ConfigService.loadConfig svc st).2)) s)).
Proof.
  intros Hfail. rewrite loadConfig_unfold. unfold answer. simpl.
  repeat split; try exact Hfail.
  - intros nxt handler s. unfold deliver. simpl. by rewrite Hfail.
  - intros nxt s. unfold deliver. simpl. by rewrite Hfail.
Qed.

Lemma loadConfig_failure_reaches_caller_down :
  ending (answer (ConfigService.loadConfig (config_service http_down)
                    (initial_state TheFormBuilder http_ok)).1
                 (ConfigService.loadConfig (config_service http_down)
                    (initial_state TheFormBuilder http_ok)).2)
  = Fails unreachable.
Proof.
  destruct (loadConfig_failure_reaches_caller (config_service http_down)
              (initial_state TheFormBuilder http_ok) unreachable) as (_ & _ & H & _).
  - vm_compute. reflexivity.
  - exact H.
Defined.

(** * Further properties of the component and the service *)

(** ** Outcomes of one submission *)

(** X1: when the handle of the POST delivers one response [r] and
    completes, the event loop writes exactly one line, ([Success], [r])
    at log level; no error line is added, nothing is reported as
    unhandled and the component is what it was. *)
Theorem onSubmit_success_logged (st : State) (r : HttpResponse) :
  pending st = [] ->
  emitted (submit_handle st) = [r] ->
  ending (submit_handle st) = Completes ->
  console (store (run_pending (onSubmit st).2))
  = console (store st) ++ [{| level := LevelLog; label := "Success"; detail := ArgResponse r |}]
  /\ error_count (console (store (run_pending (onSubmit st).2)))
     = error_count (console (store st))
  /\ uncaught (store (run_pending (onSubmit st).2)) = uncaught (store st)
  /\ component (store (run_pending (onSubmit st).2)) = component (store st).
Proof.
  intros Hq Hval Hend.
  rewrite (submit_settled st Hq), Hval, Hend. simpl.
  repeat split.
  unfold error_count. rewrite List.filter_app. simpl. by rewrite app_nil_r.
Qed.

Lemma onSubmit_success_logged_alice :
  console (store (run_pending (onSubmit (alice http_ok)).2))
  = [{| level := LevelLog; label := "Success"; detail := ArgResponse "done" |}].
Proof.
  destruct (onSubmit_success_logged (alice http_ok) "done"%string) as [H _].
  - vm_compute. reflexivity.
  - vm_compute. reflexivity.
  - vm_compute. reflexivity.
  - exact H.
Defined.

(** X2: whatever the outcome, a submission is one request and its
    notifications are delivered once: after the event loop has run, the
    request log holds exactly the one new request (nothing is sent again,
    also not after a failure), nothing is pending, and a further turn of
    the event loop changes nothing. *)
Theorem onSubmit_no_resend (st : State) :
  pending st = [] ->
  requests (store (run_pending (onSubmit st).2))
  = requests (store st) ++ [submitted_request (component (store st))]
  /\ pending (run_pending (onSubmit st).2) = []
  /\ run_pending (run_pending (onSubmit st).2) = run_pending (onSubmit st).2.
Proof.
  intros Hq. rewrite (submit_settled st Hq). repeat split.
Qed.

Lemma onSubmit_no_resend_down :
  length (requests (store (run_pending (onSubmit (alice http_down)).2))) = 1.
Proof.
  destruct (onSubmit_no_resend (alice http_down)) as [H _].
  - vm_compute. reflexivity.
  - rewrite H. reflexivity.
Defined.

(** X3: when the form has no [name] control, the guarded lookup yields
    [undefined] and [onSubmit] still posts: the payload starts with the
    one [name] part, whose value is the text "undefined", followed by the
    file parts. *)
Theorem onSubmit_missing_name_control (st : State) :
  FormGroup_get (myForm (component (store st))) "name" = None ->
  requests (store (onSubmit st).2)
  = requests (store st) ++
      [{| method := POST;
          url := "/your-api-endpoint";
          body := Some (("name"%string, EntryString "undefined")
                          :: map (fun f => ("source_files"%string, EntryFile f))
                                 (selectedFiles (component (store st)))) |}]
  /\ FormData_getAll "name" (build_formData (component (store st)))
     = [EntryString "undefined"].
Proof.
  intros Hnone.
  assert (Hname : name_value (component (store st)) = JsUndefined).
  { unfold name_value. by rewrite Hnone. }
  split.
  - rewrite onSubmit_requests. unfold submitted_request.
    by rewrite build_formData_parts, Hname.
  - by rewrite getAll_name, Hname.
Qed.

Lemma onSubmit_missing_name_control_nameless :
  requests (store (onSubmit (nameless http_ok)).2)
  = [{| method := POST;
        url := "/your-api-endpoint";
        body := Some [("name"%string, EntryString "undefined");
                      ("source_files"%string, EntryFile a_txt)] |}].
Proof.
  destruct (onSubmit_missing_name_control (nameless http_ok)) as [H _].
  - vm_compute. reflexivity.
  - exact H.
Defined.

(** X4: [onFilesSelected] only replaces the selection: the form, the
    request log, the console, the unhandled errors and the pending
    subscriptions are untouched (it sends nothing).  A request already
    issued keeps the files it was built from when the selection changes
    afterwards. *)
Theorem onFilesSelected_frame (event : Event) (st : State) :
  myForm (component (store (onFilesSelected event st).2)) = myForm (component (store st))
  /\ requests (store (onFilesSelected event st).2) = requests (store st)
  /\ console (store (onFilesSelected event st).2) = console (store st)
  /\ uncaught (store (onFilesSelected event st).2) = uncaught (store st)
  /\ pending (onFilesSelected event st).2 = pending st
  /\ requests (store (onFilesSelected event (onSubmit st).2).2)
     = requests (store st) ++
         [{| method := POST;
             url := "/your-api-endpoint";
             body := Some (("name"%string,
                            EntryString (USVString
                                           (ToString (name_value (component (store st))))))
                             :: map (fun f => ("source_files"%string, EntryFile f))
                                    (selectedFiles (component (store st)))) |}].
Proof.
  rewrite !onFilesSelected_unfold. simpl.
  repeat split.
  unfold submitted_request. by rewrite build_formData_parts.
Qed.

(** X5: a submission clears neither the form nor the selection, so
    submitting again, at once or after the event loop has delivered the
    first outcome, posts the same request a second time. *)
Theorem onSubmit_twice_same_request (st : State) :
  pending st = [] ->
  requests (store (onSubmit (onSubmit st).2).2)
  = requests (store st) ++
      [submitted_request (component (store st)); submitted_request (component (store st))]
  /\ requests (store (onSubmit (run_pending (onSubmit st).2)).2)
     = requests (store st) ++
         [submitted_request (component (store st)); submitted_request (component (store st))]
  /\ selectedFiles (component (store (onSubmit (run_pending (onSubmit st).2)).2))
     = selectedFiles (component (store st)).
Proof.
  intros Hq. split; [|split].
  - rewrite !onSubmit_requests. rewrite onSubmit_unfold. simpl.
    by rewrite <- app_assoc.
  - rewrite onSubmit_requests, (submit_settled st Hq). simpl.
    by rewrite <- app_assoc.
  - rewrite onSubmit_unfold, (submit_settled st Hq). reflexivity.
Qed.

Lemma onSubmit_twice_same_request_alice :
  length (requests (store (onSubmit (run_pending (onSubmit (alice http_ok)).2)).2)) = 2.
Proof.
  destruct (onSubmit_twice_same_request (alice http_ok)) as (_ & H & _).
  - vm_compute. reflexivity.
  - rewrite H. reflexivity.
Defined.

(** ** Whole runs of a component *)

Lemma deliver_tidy (sub : Subscription) (s : Store) :
  observer sub = submit_observer ->
  deliver sub s
  = {| component := component s; requests := requests s;
       console := console s ++ lines_of (source sub);
       uncaught := uncaught s |}.
Proof.
  destruct sub as [o ob]. simpl. intros ->. apply deliver_submission.
Qed.

Lemma deliver_all_tidy (subs : list Subscription) (s : Store) :
  Forall (fun sub => observer sub = submit_observer) subs ->
  fold_left (fun acc sub => deliver sub acc) subs s
  = {| component := component s; requests := requests s;
       console := console s ++ concat (map (fun sub => lines_of (source sub)) subs);
       uncaught := uncaught s |}.
Proof.
  intros Hall. revert s. induction Hall as [|sub subs Hsub _ IH]; intros s; simpl.
  - rewrite app_nil_r. by destruct s.
  - rewrite IH, (deliver_tidy sub s Hsub). simpl. by rewrite <- app_assoc.
Qed.

Lemma tidy_initial (fb0 : FormBuilder) (http0 : HttpClient) : tidy (initial_state fb0 http0).
Proof. constructor. Qed.

Lemma tidy_step (o : Op) (st : State) : tidy st -> tidy (run_op o st).
Proof.
  unfold tidy. intros Ht. destruct o as [event| |s|]; cbn [run_op].
  - by rewrite onFilesSelected_unfold.
  - rewrite onSubmit_unfold. simpl. apply Forall_app. split; [exact Ht|].
    constructor; [reflexivity | constructor].
  - exact Ht.
  - constructor.
Qed.

(** What one operation does to each part of the state, when every
    pending subscription was made by [onSubmit]. *)
Lemma step_effect (o : Op) (st : State) :
  tidy st ->
  requests (store (run_op o st))
  = requests (store st) ++
      (if is_submit o then [submitted_request (component (store st))] else [])
  /\ uncaught (store (run_op o st)) = uncaught (store st)
  /\ selectedFiles (component (store (run_op o st)))
     = last_selection (selectedFiles (component (store st))) [o]
  /\ exists new_lines,
       console (store (run_op o st)) = console (store st) ++ new_lines
       /\ Forall submit_line new_lines
       /\ error_count new_lines + length (pending (run_op o st))
          <= length (pending st) + (if is_submit o then 1 else 0).
Proof.
  intros Ht. destruct o as [event| |s|]; cbn [run_op is_submit].
  - rewrite onFilesSelected_unfold. simpl. rewrite app_nil_r.
    repeat split. exists []. rewrite app_nil_r. repeat split; [constructor | simpl; lia].
  - rewrite onSubmit_unfold. simpl.
    repeat split. exists []. rewrite app_nil_r.
    repeat split; [constructor | rewrite length_app; simpl; lia].
  - simpl. rewrite app_nil_r.
    repeat split. exists []. rewrite app_nil_r. repeat split; [constructor | simpl; lia].
  - unfold run_pending. cbn [store pending]. rewrite (deliver_all_tidy _ _ Ht). simpl.
    rewrite app_nil_r. repeat split.
    exists (concat (map (fun sub => lines_of (source sub)) (pending st))).
    split; [reflexivity|]. clear Ht. split.
    + induction (pending st) as [|sub subs IH]; simpl; [constructor|].
      apply Forall_app. split; [|exact IH].
      unfold lines_of. apply Forall_app. split.
      * induction (emitted (source sub)) as [|r rs IHr]; simpl; constructor;
          [left; by exists r | exact IHr].
      * destruct (ending (source sub)) as [|e|]; constructor;
          [right; by exists e | constructor].
    + rewrite Nat.add_0_r, Nat.add_0_r.
      induction (pending st) as [|sub subs IH]; simpl; [reflexivity|].
      unfold error_count in *. rewrite List.filter_app, length_app.
      assert (length (List.filter is_error_entry (lines_of (source sub))) <= 1); [|lia].
      unfold lines_of. rewrite List.filter_app, success_lines_not_errors. simpl.
      destruct (ending (source sub)); simpl; lia.
Qed.

Lemma last_selection_app (cur : list File) (ops1 ops2 : list Op) :
  last_selection cur (ops1 ++ ops2) = last_selection (last_selection cur ops1) ops2.
Proof. unfold last_selection. apply fold_left_app. Qed.

(** The state after a run, from any state whose pending subscriptions
    were all made by [onSubmit]. *)
Lemma run_effect (ops : list Op) (st : State) :
  tidy st ->
  tidy (run_ops ops st)
  /\ uncaught (store (run_ops ops st)) = uncaught (store st)
  /\ selectedFiles (component (store (run_ops ops st)))
     = last_selection (selectedFiles (component (store st))) ops
  /\ (exists new_requests,
        requests (store (run_ops ops st)) = requests (store st) ++ new_requests
        /\ length new_requests = count_submits ops
        /\ Forall (fun r => method r = POST /\ url r = "/your-api-endpoint"%string
                            /\ is_Some (body r)) new_requests)
  /\ exists new_lines,
       console (store (run_ops ops st)) = console (store st) ++ new_lines
       /\ Forall submit_line new_lines
       /\ error_count new_lines + length (pending (run_ops ops st))
          <= length (pending st) + count_submits ops.
Proof.
  revert st. induction ops as [|o ops IH]; intros st Ht.
  - simpl. repeat split; try exact Ht.
    + exists []. rewrite app_nil_r. repeat split. constructor.
    + exists []. rewrite app_nil_r. repeat split; [constructor | simpl; lia].
  - cbn [run_ops fold_left].
    destruct (step_effect o st Ht) as (Hreq & Hunc & Hsel & l1 & Hcon & Hwf & Hcnt).
    destruct (IH (run_op o st) (tidy_step o st Ht))
      as (Ht' & Hunc' & Hsel' & (rs & Hreq' & Hlen & Hall) & l2 & Hcon' & Hwf' & Hcnt').
    fold (run_ops ops (run_op o st)).
    split; [exact Ht'|]. split; [by rewrite Hunc'|]. split.
    { rewrite Hsel', Hsel. symmetry. apply (last_selection_app _ [o] ops). }
    split.
    + exists ((if is_submit o then [submitted_request (component (store st))] else []) ++ rs).
      split; [by rewrite Hreq', Hreq, <- app_assoc|].
      unfold count_submits in *. cbn [List.filter].
      destruct (is_submit o); simpl; split; try (by rewrite Hlen); try exact Hall.
      constructor; [|exact Hall]. repeat split. by eexists.
    + exists (l1 ++ l2).
      split; [by rewrite Hcon', Hcon, <- app_assoc|].
      split; [apply Forall_app; by split|].
      unfold error_count, count_submits in *. cbn [List.filter].
      rewrite List.filter_app, length_app.
      destruct (is_submit o); simpl in *; lia.
Qed.

(** X6: after any sequence of file selections, submissions, name edits
    and event-loop turns on a new component, the selection is the file
    list of the latest selection event, or empty if there was none:
    neither a submission nor the delivery of its outcome changes it. *)
Theorem selection_is_latest (fb0 : FormBuilder) (http0 : HttpClient) (ops : list Op) :
  selectedFiles (component (store (run_ops ops (initial_state fb0 http0))))
  = last_selection [] ops.
Proof.
  destruct (run_effect ops _ (tidy_initial fb0 http0)) as (_ & _ & Hsel & _).
  exact Hsel.
Qed.

(** X7: over any such sequence the component sends exactly one request
    per call of [onSubmit] and none otherwise, and every request is a
    POST to /your-api-endpoint that carries a body. *)
Theorem one_request_per_submit (fb0 : FormBuilder) (http0 : HttpClient) (ops : list Op) :
  length (requests (store (run_ops ops (initial_state fb0 http0)))) = count_submits ops
  /\ Forall (fun r => method r = POST /\ url r = "/your-api-endpoint"%string
                      /\ is_Some (body r))
            (requests (store (run_ops ops (initial_state fb0 http0)))).
Proof.
  destruct (run_effect ops _ (tidy_initial fb0 http0))
    as (_ & _ & _ & (rs & Hreq & Hlen & Hall) & _).
  simpl in Hreq. rewrite Hreq. by split.
Qed.

(** X8: over any such sequence, and whatever the transport answers, no
    error is ever reported as unhandled: every subscription the
    component makes has an error callback. *)
Theorem never_unhandled (fb0 : FormBuilder) (http0 : HttpClient) (ops : list Op) :
  uncaught (store (run_ops ops (initial_state fb0 http0))) = []
  /\ Forall (fun sub => is_Some (error (observer sub)))
            (pending (run_ops ops (initial_state fb0 http0))).
Proof.
  destruct (run_effect ops _ (tidy_initial fb0 http0)) as (Ht & Hunc & _).
  split; [exact Hunc|].
  unfold tidy in Ht. eapply Forall_impl; [exact Ht|].
  intros sub ->. by eexists.
Qed.

(** X9: over any such sequence the console holds only lines written by
    the two callbacks, ([Success], response) at log level or ([Error],
    failure) at error level, and the error lines together with the
    submissions still awaiting delivery never outnumber the calls of
    [onSubmit]: a submission is reported as failed at most once. *)
Theorem console_lines_bounded (fb0 : FormBuilder) (http0 : HttpClient) (ops : list Op) :
  Forall submit_line (console (store (run_ops ops (initial_state fb0 http0))))
  /\ error_count (console (store (run_ops ops (initial_state fb0 http0))))
     + length (pending (run_ops ops (initial_state fb0 http0)))
     <= count_submits ops.
Proof.
  destruct (run_effect ops _ (tidy_initial fb0 http0))
    as (_ & _ & _ & _ & ls & Hcon & Hwf & Hcnt).
  simpl in Hcon, Hcnt. rewrite Hcon. by split.
Qed.

(** ** The handle of the configuration on success *)

(** X10: when the transport answers the GET with one response [r] and
    completion, a caller who subscribes to the handle returned by
    [loadConfig] gets [r] itself passed to the value callback, and the
    error callback is not run; without a value callback nothing happens
    and nothing is reported as unhandled. *)
Theorem loadConfig_success_reaches_caller (svc : ConfigService.t) (st : State)
    (r : HttpResponse) :
  emitted (backend (ConfigService.http svc) (requests (store st)) config_request) = [r] ->
  ending (backend (ConfigService.http svc) (requests (store st)) config_request) = Completes ->
  (forall nxt err,
     pending (subscribe (ConfigService.loadConfig svc st).1 nxt err
                        (ConfigService.loadConfig svc st).2).2
     = pending st ++
         [{| source := answer (ConfigService.loadConfig svc st).1
                              (ConfigService.loadConfig svc st).2;
             observer := {| next := nxt; error := err |} |}])
  /\ (forall on_value on_error s,
        deliver {| source := answer (ConfigService.loadConfig svc st).1
                                    (ConfigService.loadConfig svc st).2;
                   observer := {| next := Some on_value; error := on_error |} |} s
        = on_value r s)
  /\ (forall on_error s,
        deliver {| source := answer (ConfigService.loadConfig svc st).1
                                    (ConfigService.loadConfig svc st).2;
                   observer := {| next := None; error := on_error |} |} s
        = s).
Proof.
  intros Hval Hend. rewrite loadConfig_unfold. unfold answer. simpl.
  split; [reflexivity|].
  split; intros; unfold deliver; simpl; by rewrite Hval, Hend.
Qed.

Lemma loadConfig_success_reaches_caller_ok :
  deliver {| source := answer (ConfigService.loadConfig (config_service http_ok)
                                 (initial_state TheFormBuilder http_down)).1
                              (ConfigService.loadConfig (config_service http_ok)
                                 (initial_state TheFormBuilder http_down)).2;
             observer := {| next := Some (fun res => console_log "Config" (ArgResponse res));
                            error := None |} |}
          (store (initial_state TheFormBuilder http_down))
  = console_log "Config" (ArgResponse "done") (store (initial_state TheFormBuilder http_down)).
Proof.
  destruct (loadConfig_success_reaches_caller (config_service http_ok)
              (initial_state TheFormBuilder http_down) "done"%string) as (_ & H & _).
  - vm_compute. reflexivity.
  - vm_compute. reflexivity.
  - apply H.
Defined.

(** ** The form built by the constructor *)

(** X11: the form of a new component has the [name] control and no
    other: looking up any other key finds nothing, and the guarded read
    of its value gives [undefined]. *)
Theorem new_component_only_name (fb0 : FormBuilder) (http0 : HttpClient) (key : string) :
  key <> "name"%string ->
  FormGroup_get (myForm (MyComponent_new fb0 http0)) key = None
  /\ optional_value (FormGroup_get (myForm (MyComponent_new fb0 http0)) key) = JsUndefined
  /\ dom (controls (myForm (MyComponent_new fb0 http0))) = {[ "name"%string ]}.
Proof.
  intros Hne.
  assert (Hnone : FormGroup_get (myForm (MyComponent_new fb0 http0)) key = None).
  { unfold FormGroup_get, MyComponent_new, FormBuilder_group. simpl.
    rewrite lookup_fmap, lookup_singleton_ne; [reflexivity | congruence]. }
  split; [exact Hnone|]. split; [by rewrite Hnone|].
  unfold MyComponent_new, FormBuilder_group. simpl.
  by rewrite dom_fmap_L, dom_singleton_L.
Qed.

Lemma new_component_only_name_email :
  FormGroup_get (myForm (MyComponent_new TheFormBuilder http_ok)) "email" = None.
Proof.
  destruct (new_component_only_name TheFormBuilder http_ok "email"%string) as [H _].
  - apply (bool_decide_unpack ("email"%string <> "name"%string)). vm_compute. exact I.
  - exact H.
Defined.

(** ** Submitting before any selection *)

Lemma last_selection_none (cur : list File) (ops : list Op) :
  Forall (fun o => is_selection o = false) ops ->
  last_selection cur ops = cur.
Proof.
  intros Hno. revert cur. induction Hno as [|o ops Ho _ IH]; intros cur; [reflexivity|].
  cbn [last_selection fold_left]. fold (last_selection (match o with
                                                        | OpFilesSelected event => files (target event)
                                                        | _ => cur
                                                        end) ops).
  rewrite IH. by destruct o.
Qed.

(** C10: the selection of a new component is empty and stays empty over
    any sequence of submissions, name edits and event-loop turns without
    a file selection; so [onSubmit] called before any file selection
    issues one POST whose payload is the single part [name], holding the
    current name (the empty string for a new component): exactly one
    [name] part and no [source_files] part. *)
Theorem onSubmit_before_selection (fb0 : FormBuilder) (http0 : HttpClient) (ops : list Op) :
  Forall (fun o => is_selection o = false) ops ->
  selectedFiles (MyComponent_new fb0 http0) = []
  /\ selectedFiles (component (store (run_ops ops (initial_state fb0 http0)))) = []
  /\ (exists s,
        name_value (component (store (run_ops ops (initial_state fb0 http0)))) = JsString s
        /\ requests (store (onSubmit (run_ops ops (initial_state fb0 http0))).2)
           = requests (store (run_ops ops (initial_state fb0 http0))) ++
               [{| method := POST;
                   url := "/your-api-endpoint";
                   body := Some [("name"%string, EntryString (USVString s))] |}])
  /\ length (FormData_getAll "name"
               (build_formData (component (store (run_ops ops (initial_state fb0 http0))))))
     = 1
  /\ length (FormData_getAll "source_files"
               (build_formData (component (store (run_ops ops (initial_state fb0 http0))))))
     = 0
  /\ requests (store (onSubmit (initial_state fb0 http0)).2)
     = [{| method := POST;
           url := "/your-api-endpoint";
           body := Some [("name"%string, EntryString EmptyString)] |}].
Proof.
  intros Hno.
  destruct (run_effect ops _ (tidy_initial fb0 http0)) as (_ & _ & Hsel & _).
  rewrite (last_selection_none _ _ Hno) in Hsel. simpl in Hsel.
  destruct (Inv_run_ops ops _ (Inv_initial fb0 http0)) as [[s Hs] _].
  assert (Hname : name_value (component (store (run_ops ops (initial_state fb0 http0))))
                  = JsString s).
  { unfold name_value. by rewrite Hs. }
  split; [reflexivity|]. split; [exact Hsel|]. split; [|split; [|split]].
  - exists s. split; [exact Hname|].
    rewrite onSubmit_requests. unfold submitted_request.
    by rewrite build_formData_parts, Hname, Hsel.
  - by rewrite getAll_name.
  - by rewrite getAll_source_files, Hsel.
  - assert (Hnew : name_value (MyComponent_new fb0 http0) = JsString EmptyString).
    { unfold name_value. by rewrite new_component_name. }
    rewrite onSubmit_requests. unfold submitted_request.
    rewrite build_formData_parts. simpl component. by rewrite Hnew.
Qed.

Lemma onSubmit_before_selection_dave :
  requests (store (onSubmit (dave http_ok)).2)
  = [{| method := POST;
        url := "/your-api-endpoint";
        body := Some [("name"%string, EntryString "Dave"%string)] |};
     {| method := POST;
        url := "/your-api-endpoint";
        body := Some [("name"%string, EntryString "Dave Jr"%string)] |}]
  /\ selectedFiles (component (store (dave http_ok))) = [].
Proof.
  destruct (onSubmit_before_selection TheFormBuilder http_ok
              [OpSetName "Dave"%string; OpSubmit; OpEventLoop; OpSetName "Dave Jr"%string])
    as (_ & Hsel & _).
  - repeat constructor.
  - split; [vm_compute; reflexivity | exact Hsel].
Defined.
